(** * download_tickets.py: ticket CSV downloader and aggregator

    A shallow embedding of [TicketCSVDownloader] (src/download_tickets.py)
    and the properties of its three stages: link extraction, retrying
    download, header-aware aggregation.

    Conventions.
    - A Python [str] is a Rocq [string]; a character is a code point below
      256.  The raw bytes of a downloaded file are a [string] as well.
    - A CSV row is a [list string]; the CSV reader, writer and sniffer, the
      MIME parser and the HTTP transport are outside the repository: what
      they return is data of the model ([file_read], [message], [attempt]).
    - The faults of the model are those the program handles and the
      specification lists: a missing or unparsable message, a failing
      request, an empty or unreadable raw file.  Writing a local file is
      taken to succeed. *)

From Stdlib Require Import ZArith Ascii String List Bool Lia.
From stdpp Require Import gmap strings list pretty.
Import ListNotations.

(** ** Python string operations *)

Module Py.

Definition in_range (lo hi : nat) (c : ascii) : bool :=
  (lo <=? nat_of_ascii c)%nat && (nat_of_ascii c <=? hi)%nat.

(** [str.lower] on one code point below 256: A-Z, and the upper-case
    letters of Latin-1 (U+00C0..U+00DE without the multiplication sign). *)
Definition lower_char (c : ascii) : ascii :=
  if in_range 65 90 c
     || (in_range 192 222 c && negb (nat_of_ascii c =? 215)%nat)
  then ascii_of_nat (nat_of_ascii c + 32)
  else c.

Fixpoint lower (s : string) : string :=
  match s with
  | "" => ""
  | String c s' => String (lower_char c) (lower s')
  end.

(** [str.isspace] on one code point below 256. *)
Definition isspace (c : ascii) : bool :=
  in_range 9 13 c || in_range 28 32 c
  || (nat_of_ascii c =? 133)%nat || (nat_of_ascii c =? 160)%nat.

Fixpoint lstrip (s : string) : string :=
  match s with
  | "" => ""
  | String c s' => if isspace c then lstrip s' else s
  end.

Fixpoint rstrip (s : string) : string :=
  match s with
  | "" => ""
  | String c s' =>
      match rstrip s' with
      | "" => if isspace c then "" else String c ""
      | r => String c r
      end
  end.

Definition strip (s : string) : string := lstrip (rstrip s).

Fixpoint startswith (s p : string) : bool :=
  match p, s with
  | "", _ => true
  | String a p', String b s' => Ascii.eqb a b && startswith s' p'
  | String _ _, "" => false
  end.

Fixpoint endswith (s suf : string) : bool :=
  String.eqb s suf
  || match s with
     | "" => false
     | String _ s' => endswith s' suf
     end.

(** [sub in s] *)
Fixpoint contains (sub s : string) : bool :=
  startswith s sub
  || match s with
     | "" => false
     | String _ s' => contains sub s'
     end.

(** [posixpath.basename]: what follows the last slash. *)
Fixpoint basename (p : string) : string :=
  match p with
  | "" => ""
  | String c p' =>
      if contains "/" p' then basename p'
      else if Ascii.eqb c "/" then p' else p
  end.

(** [posixpath.join] of two components. *)
Definition join (dir name : string) : string :=
  if startswith name "/" then name
  else if endswith dir "/" || String.eqb dir "" then dir +:+ name
  else dir +:+ "/" +:+ name.

End Py.

(** ** A backtracking matcher for the pattern of [re.findall]

    The pattern of [extract_csv_urls] is a sequence of single characters
    and of greedy repetitions of a character class, one of them inside the
    only group.  [match_here] tries the longest repetition first and gives
    back one character at a time, as the [re] module does. *)

Module Re.

Inductive atom :=
| Chr (cls : ascii → bool)
    (* one character of a class *)
| Rep (least : nat) (cls : ascii → bool) (grp : bool).
    (* [cls+] or [cls*], greedy; [grp]: the repetition is group 1 *)

(** A match is the text of group 1 and the number of characters used. *)
Fixpoint greedy (cls : ascii → bool) (least : nat) (grp : bool)
    (k : string → option (string * nat)) (s : string)
    : option (string * nat) :=
  let stop := match least with O => k s | S _ => None end in
  match s with
  | "" => stop
  | String c s' =>
      if cls c then
        match greedy cls (Nat.pred least) grp k s' with
        | Some (g, n) => Some (if grp then String c g else g, S n)
        | None => stop
        end
      else stop
  end.

Fixpoint match_here (p : list atom) (s : string) : option (string * nat) :=
  match p with
  | [] => Some ("", O)
  | Chr cls :: p' =>
      match s with
      | "" => None
      | String c s' =>
          if cls c then
            match match_here p' s' with
            | Some (g, n) => Some (g, S n)
            | None => None
            end
          else None
      end
  | Rep least cls grp :: p' => greedy cls least grp (match_here p') s
  end.

(** [re.findall] for a pattern with one group: the matches from left to
    right, none overlapping another.  [skip] counts the characters of the
    last match that are still to be passed. *)
Fixpoint findall_from (p : list atom) (skip : nat) (s : string)
    : list string :=
  match s, skip with
  | "", O => match match_here p "" with Some (g, _) => [g] | None => [] end
  | "", S _ => []
  | String _ s', S k => findall_from p k s'
  | String _ s', O =>
      match match_here p s with
      | Some (g, n) => g :: findall_from p (Nat.pred n) s'
      | None => findall_from p O s'
      end
  end.

Definition findall (p : list atom) (s : string) : list string :=
  findall_from p O s.

Definition only (a : ascii) : ascii → bool := Ascii.eqb a.
(** a letter under [re.IGNORECASE] *)
Definition ci (a : ascii) : ascii → bool :=
  fun c => Ascii.eqb (Py.lower_char c) a.
Definition quote (c : ascii) : bool :=
  Ascii.eqb c "034" || Ascii.eqb c "'".
Definition non (cls : ascii → bool) : ascii → bool := fun c => negb (cls c).

(** The pattern of line 133, under [re.IGNORECASE]: the characters [<a],
    one or more characters other than [>], the characters [href=], a
    quote (single or double), group 1 of one or more characters that are
    not quotes, a quote, any characters other than [>], and [>]. *)
Definition anchor_href : list atom :=
  [ Chr (only "<"); Chr (ci "a"); Rep 1 (non (only ">")) false;
    Chr (ci "h"); Chr (ci "r"); Chr (ci "e"); Chr (ci "f"); Chr (only "=");
    Chr quote; Rep 1 (non quote) true; Chr quote;
    Rep 0 (non (only ">")) false; Chr (only ">") ].

End Re.

(** ** The downloader object and its world *)

Definition row := list string.

(** The fields [__init__] stores; [timestamp] is the formatted
    [datetime.now()] of the construction. *)
Record downloader := {
  eml_path : string;
  output_name : string;
  base_output_dir : string;
  timestamp : string
}.

Definition output_folder (self : downloader) : string :=
  "dtb." +:+ output_name self +:+ "_" +:+ timestamp self.
Definition output_dir (self : downloader) : string :=
  Py.join (base_output_dir self) (output_folder self).
Definition raw_dir (self : downloader) : string :=
  Py.join (output_dir self) "raw_downloads".
Definition logs_dir (self : downloader) : string :=
  Py.join (output_dir self) "logs".
Definition combined_path (self : downloader) : string :=
  Py.join (output_dir self) ("combined_" +:+ output_name self +:+ ".csv").

Definition retry_attempts : nat := 3.
Definition retry_delay : Z := 2.
Definition timeout : Z := 10.
Definition user_agent : string := "TicketCSV-Downloader/1.0".

(** What a run can change or show: the files of [raw_dir] by name, the
    combined file (its rows, [None] while it does not exist), the two log
    files and the console by line, the calls of [time.sleep], and the number
    of requests sent. *)
Record world := {
  raw_files : gmap string string;
  combined_file : option (list row);
  downloads_log : list string;
  aggregation_log : list string;
  console : list string;
  sleeps : list Z;
  requests : nat
}.

Definition write_raw (name data : string) (w : world) : world :=
  {| raw_files := <[name := data]> (raw_files w);
     combined_file := combined_file w;
     downloads_log := downloads_log w;
     aggregation_log := aggregation_log w;
     console := console w;
     sleeps := sleeps w;
     requests := requests w |}.

Definition write_combined (rows : list row) (w : world) : world :=
  {| raw_files := raw_files w;
     combined_file := Some rows;
     downloads_log := downloads_log w;
     aggregation_log := aggregation_log w;
     console := console w;
     sleeps := sleeps w;
     requests := requests w |}.

Definition log_download (line : string) (w : world) : world :=
  {| raw_files := raw_files w;
     combined_file := combined_file w;
     downloads_log := downloads_log w ++ [line];
     aggregation_log := aggregation_log w;
     console := console w;
     sleeps := sleeps w;
     requests := requests w |}.

Definition log_aggregation (lines : list string) (w : world) : world :=
  {| raw_files := raw_files w;
     combined_file := combined_file w;
     downloads_log := downloads_log w;
     aggregation_log := aggregation_log w ++ lines;
     console := console w;
     sleeps := sleeps w;
     requests := requests w |}.

Definition print (line : string) (w : world) : world :=
  {| raw_files := raw_files w;
     combined_file := combined_file w;
     downloads_log := downloads_log w;
     aggregation_log := aggregation_log w;
     console := console w ++ [line];
     sleeps := sleeps w;
     requests := requests w |}.

Definition sleep (seconds : Z) (w : world) : world :=
  {| raw_files := raw_files w;
     combined_file := combined_file w;
     downloads_log := downloads_log w;
     aggregation_log := aggregation_log w;
     console := console w;
     sleeps := sleeps w ++ [seconds];
     requests := requests w |}.

Definition count_request (w : world) : world :=
  {| raw_files := raw_files w;
     combined_file := combined_file w;
     downloads_log := downloads_log w;
     aggregation_log := aggregation_log w;
     console := console w;
     sleeps := sleeps w;
     requests := S (requests w) |}.

(** ** extract_csv_urls *)

(** One part of [msg.walk()]: its Content-Disposition header, its content
    type, and the decoded text of [get_payload(decode=True)] ([None] when
    there is none). *)
Record part := {
  content_disposition : option string;
  content_type : string;
  payload : option string
}.

Inductive message :=
| Multipart (walk : list part)
| Singlepart (payload : option string).

(** The file at [eml_path]. *)
Inductive eml_file :=
| Missing
| Unparsable (reason : string)
| Parses (msg : message).

Definition add_part (body : string) (p : part) : string :=
  if negb (Py.contains "attachment" (default "" (content_disposition p))) then
    if String.eqb (content_type p) "text/html" then
      match payload p with
      | Some text => body +:+ text
      | None => body
      end
    else body
  else body.

Definition body_of (msg : message) : string :=
  match msg with
  | Multipart walk => fold_left add_part walk ""
  | Singlepart (Some text) => text
  | Singlepart None => ""
  end.

Definition is_csv_name (name : string) : bool :=
  Py.endswith (Py.lower name) ".csv".

(** Lines 133 and 135. *)
Definition links_of (body : string) : list string :=
  Re.findall Re.anchor_href body.

Definition csv_urls_of (body : string) : list string :=
  List.map Py.strip (List.filter is_csv_name (links_of body)).

Definition extract_csv_urls (self : downloader) (eml : eml_file) (w : world)
    : list string * world :=
  match eml with
  | Missing => ([], log_download ("EMAIL NOT FOUND: " +:+ eml_path self) w)
  | Unparsable reason =>
      ([], log_download ("FAILED TO PARSE EMAIL: " +:+ reason) w)
  | Parses msg =>
      let csv_urls := csv_urls_of (body_of msg) in
      (csv_urls,
       log_aggregation
         ["Found " +:+ pretty (length csv_urls) +:+ " .csv URLs in email."] w)
  end.

(** ** aggregate_csv_files *)

(** [csv.Sniffer().has_header(sample)]: its answer, or [csv.Error]. *)
Inductive sniffed := SaysHeader | SaysNoHeader | SniffError.

(** Reading one raw file: an exception (while opening, decoding, sniffing
    or parsing), or the sniffer's answer and the rows of [csv.reader]. *)
Inductive file_read :=
| Unreadable (reason : string)
| Parsed (sniff : sniffed) (rows : list row).

Definition has_header (sniff : sniffed) : bool :=
  match sniff with
  | SaysHeader => true
  | SaysNoHeader => false
  | SniffError => false
  end.

(** The variables of the loop, the rows written to the combined file so
    far, and the lines logged so far. *)
Record agg := {
  writer : bool;
  header_written : bool;
  total_data_rows : nat;
  written : list row;
  logged : list string
}.

Definition agg_start : agg :=
  {| writer := false; header_written := false; total_data_rows := O;
     written := []; logged := [] |}.

Definition agg_log (line : string) (st : agg) : agg :=
  {| writer := writer st; header_written := header_written st;
     total_data_rows := total_data_rows st;
     written := written st; logged := logged st ++ [line] |}.

(** One turn of the loop of lines 219-255. *)
Definition agg_file (st : agg) (entry : string * file_read) : agg :=
  let '(file, read) := entry in
  match read with
  | Unreadable reason => agg_log (file +:+ " - FAILED (" +:+ reason +:+ ")") st
  | Parsed sniff rows =>
      match rows with
      | [] => agg_log (file +:+ " - SKIPPED (empty)") st
      | first :: rest =>
          let header := if header_written st then [] else [first] in
          let data_rows :=
            if header_written st
            then (if has_header sniff then rest else rows)
            else rest in
          let row_count := length data_rows in
          {| writer := true;
             header_written := true;
             total_data_rows := (total_data_rows st + row_count)%nat;
             written := written st ++ header ++ data_rows;
             logged := logged st ++
               [file +:+ " - ADDED (" +:+ pretty row_count +:+ " rows)"] |}
      end
  end.

Definition csv_files (dir : list (string * file_read))
    : list (string * file_read) :=
  List.filter (fun entry => is_csv_name (fst entry)) dir.

Definition final_row_count (st : agg) : nat :=
  (total_data_rows st + (if header_written st then 1 else 0))%nat.

(** [dir] is [os.listdir(self.raw_dir)] in the order of the listing, each
    name with what reading that file gives. *)
Definition aggregate_csv_files (self : downloader)
    (dir : list (string * file_read)) (w : world) : world :=
  match csv_files dir with
  | [] => log_aggregation ["No CSV files to aggregate."] w
  | files =>
      let st := fold_left agg_file files agg_start in
      print ("Aggregation complete: " +:+ combined_path self)
        (log_aggregation
           (logged st ++
            ["FINAL: combined_" +:+ output_name self +:+ ".csv - CREATED ("
             +:+ pretty (final_row_count st) +:+ " rows)"])
           (write_combined (written st) w))
  end.

(** ** download_file and run *)

Record request := {
  req_url : string;
  req_user_agent : string;
  req_timeout : Z
}.

(** What one turn of the retry loop meets: a response with its status and
    payload, or one of the three exceptions the loop handles
    ([OtherException] also covers a failing [response.read()]). *)
Inductive attempt :=
| Responds (status : Z) (data : string)
| HTTPError (code : Z)
| URLError (reason : string)
| OtherException (msg : string).

Section Downloader.

(** [urlparse(url).path], for the links [urlparse] accepts *)
Variable urlparse_path : string → string.
(** [urlopen], by the number of requests sent before *)
Variable urlopen : nat → request → attempt.
(** [int(time.time())], by the number of requests sent before *)
Variable time_time : nat → Z.
(** [os.listdir] on the files of [raw_dir], and the reading of one file *)
Variable listdir : gmap string string → list string.
Variable read_csv : string → string → file_read.

(** Lines 150-152. *)
Definition local_filename (now : Z) (url : string) : string :=
  let filename := Py.basename (urlparse_path url) in
  if String.eqb filename "" || negb (Py.contains "." filename)
  then "download_" +:+ pretty now +:+ ".csv"
  else filename.

Definition success_line (url filename : string) : string :=
  "DOWNLOAD: " +:+ url +:+ " -> " +:+ filename +:+ " - SUCCESS".
Definition failed_line (url filename msg : string) : string :=
  "DOWNLOAD: " +:+ url +:+ " -> " +:+ filename +:+ " - FAILED ("
  +:+ msg +:+ ")".

(** The loop of lines 156-198 over the attempt numbers still to come. *)
Fixpoint download_attempts (self : downloader) (url filename filepath : string)
    (todo : list nat) (w : world) : option string * world :=
  match todo with
  | [] => (None, w)
  | attempt :: todo' =>
      let req := {| req_url := url; req_user_agent := user_agent;
                    req_timeout := timeout |} in
      let w1 := count_request w in
      let again msg :=
        if (attempt <? retry_attempts)%nat
        then download_attempts self url filename filepath todo'
               (sleep retry_delay w1)
        else (None, log_download (failed_line url filename msg) w1) in
      match urlopen (requests w) req with
      | Responds status data =>
          if (status =? 200)%Z
          then (Some filepath,
                log_download (success_line url filename)
                  (write_raw filename data w1))
          else again ("HTTP " +:+ pretty status)
      | HTTPError code => again ("HTTP " +:+ pretty code)
      | URLError reason => again reason
      | OtherException msg => again msg
      end
  end.

Definition download_file (self : downloader) (url : string) (w : world)
    : option string * world :=
  let filename := local_filename (time_time (requests w)) url in
  let filepath := Py.join (raw_dir self) filename in
  download_attempts self url filename filepath (seq 1 retry_attempts) w.

(** The loop of lines 278-282. *)
Fixpoint download_all (self : downloader) (urls : list string)
    (downloaded_files : list string) (w : world) : list string * world :=
  match urls with
  | [] => (downloaded_files, w)
  | url :: urls' =>
      let '(filepath, w1) := download_file self url w in
      match filepath with
      | Some p =>
          if String.eqb p ""
          then download_all self urls' downloaded_files w1
          else download_all self urls' (downloaded_files ++ [p]) w1
      | None => download_all self urls' downloaded_files w1
      end
  end.

Definition dir_entries (files : gmap string string)
    : list (string * file_read) :=
  omap (fun name =>
          (fun data => (name, read_csv name data)) <$> files !! name)
       (listdir files).

Definition run (self : downloader) (eml : eml_file) (w : world) : world :=
  let w := print ("Parsing email: " +:+ eml_path self) w in
  let w := print ("Output folder: " +:+ output_dir self) w in
  let '(urls, w) := extract_csv_urls self eml w in
  match urls with
  | [] => print " No .csv URLs found in email." w
  | _ =>
      let '(downloaded_files, w) := download_all self urls [] w in
      let w :=
        print (" Downloaded " +:+ pretty (length downloaded_files)
               +:+ " out of " +:+ pretty (length urls) +:+ " files.") w in
      let w := aggregate_csv_files self (dir_entries (raw_files w)) w in
      print ("Process complete. Check logs in: " +:+ logs_dir self) w
  end.

End Downloader.

(** ** The path component of a link

    Modelled from the spec: the URL path component of section 4.1, which
    [extract_csv_urls] never computes.  It is what follows the scheme and
    the authority, up to the first [?] or [#], as [urlsplit] cuts a URL. *)

Module Url.

Definition scheme_char (c : ascii) : bool :=
  Py.in_range 97 122 c || Py.in_range 65 90 c || Py.in_range 48 57 c
  || Ascii.eqb c "+" || Ascii.eqb c "-" || Ascii.eqb c ".".

Definition alpha (c : ascii) : bool :=
  Py.in_range 97 122 c || Py.in_range 65 90 c.

(** the text before the first character of a class; all of it without one *)
Fixpoint before (stop : ascii → bool) (s : string) : string :=
  match s with
  | "" => ""
  | String c s' => if stop c then "" else String c (before stop s')
  end.

(** the text from the first character of a class on *)
Fixpoint from (stop : ascii → bool) (s : string) : string :=
  match s with
  | "" => ""
  | String c s' => if stop c then s else from stop s'
  end.

Fixpoint all_chars (cls : ascii → bool) (s : string) : bool :=
  match s with
  | "" => true
  | String c s' => cls c && all_chars cls s'
  end.

Definition after_scheme (url : string) : string :=
  match url, from (Ascii.eqb ":") url with
  | String c0 _, String _ rest =>
      if alpha c0 && all_chars scheme_char (before (Ascii.eqb ":") url)
      then rest else url
  | _, _ => url
  end.

Definition delimiter (c : ascii) : bool :=
  Ascii.eqb c "/" || Ascii.eqb c "?" || Ascii.eqb c "#".

Definition after_netloc (rest : string) : string :=
  match rest with
  | String "/" (String "/" r) => from delimiter r
  | _ => rest
  end.

Definition path (url : string) : string :=
  before (Ascii.eqb "?")
    (before (Ascii.eqb "#") (after_netloc (after_scheme url))).

End Url.


(** ** Vocabulary of the statements *)








(** The reason of a failing attempt, [None] for a response with status 200. *)
Definition failure_of (a : attempt) : option string :=
  match a with
  | Responds status _ =>
      if (status =? 200)%Z then None else Some ("HTTP " +:+ pretty status)
  | HTTPError code => Some ("HTTP " +:+ pretty code)
  | URLError reason => Some reason
  | OtherException msg => Some msg
  end.

Definition payload_of (a : attempt) : string :=
  match a with
  | Responds _ data => data
  | _ => ""
  end.

Definition request_for (url : string) : request :=
  {| req_url := url; req_user_agent := user_agent; req_timeout := timeout |}.

(** The world after [n] requests of one link, a pause before each but the
    first. *)
Fixpoint tried (n : nat) (w : world) : world :=
  match n with
  | O => w
  | S O => count_request w
  | S n' => count_request (sleep retry_delay (tried n' w))
  end.

Definition example_self : downloader :=
  {| eml_path := "emails/tickets.eml"; output_name := "July";
     base_output_dir := "output"; timestamp := "20240701_120000" |}.


(** A transport whose first two requests fail and whose later ones are
    answered with status 200, and one that never answers. *)
Definition third_time_lucky (n : nat) (req : request) : attempt :=
  match n with
  | 0 => HTTPError 503
  | 1 => URLError "timed out"
  | _ => Responds 200 "id,n"
  end.
Definition always_down (n : nat) (req : request) : attempt :=
  URLError "unreachable".
Definition echo (n : nat) (req : request) : attempt :=
  Responds 200 (req_url req).
Definition noon (n : nat) : Z := 1719835200%Z.
Definition no_listing (files : gmap string string) : list string := [].
Definition no_rows (name data : string) : file_read := Parsed SniffError [].

Definition attached_part : part :=
  {| content_disposition := Some "attachment; filename=a.html";
     content_type := "text/html";
     payload := Some "<a href='http://x/hidden.csv'>" |}.
Definition html_part : part :=
  {| content_disposition := None;
     content_type := "text/html";
     payload := Some "<a href=' http://x/a.csv'>a</a>" |}.

Definition fresh_world : world :=
  {| raw_files := ∅; combined_file := None; downloads_log := [];
     aggregation_log := []; console := []; sleeps := []; requests := O |}.

(** A part that [extract_csv_urls] passes over: an attachment, a part that
    is not HTML, or one without payload. *)
Definition ignored_part (p : part) : bool :=
  Py.contains "attachment" (default "" (content_disposition p))
  || negb (String.eqb (content_type p) "text/html")
  || match payload p with None => true | Some _ => false end.

(** no repetition of the pattern is a group *)
Definition ungrouped (p : list Re.atom) : bool :=
  forallb (fun a => match a with
                    | Re.Rep _ _ true => false
                    | _ => true
                    end) p.


(** A link whose path gives no usable file name (line 151). *)
Definition nameless (urlparse_path : string → string) (url : string) : Prop :=
  Py.basename (urlparse_path url) = ""
  ∨ Py.contains "." (Py.basename (urlparse_path url)) = false.

(** What [posixpath.join] puts between a directory and a name. *)
Definition sep_of (dir : string) : string :=
  if Py.endswith dir "/" || String.eqb dir "" then "" else "/".

Definition dq : string := String "034" "".

Example findall_spec_scenario :
  Re.findall Re.anchor_href
    ("<p><a href=" +:+ dq +:+ "http://x/a.csv" +:+ dq +:+ ">a</a> <A class='k' HREF='http://x/b.csv' id=1>b</a>")
  = ["http://x/a.csv"; "http://x/b.csv"].
Proof. vm_compute. reflexivity. Qed.

(** * Properties *)

(** ** Strings *)

Lemma app_cons (c : ascii) (s t : string) :
  String c s +:+ t = String c (s +:+ t).
Proof. reflexivity. Qed.

Lemma app_empty_r (s : string) : s +:+ "" = s.
Proof. induction s as [|c s IH]; [reflexivity|]. by rewrite app_cons, IH. Qed.

Lemma app_assoc_s (a b c : string) : (a +:+ b) +:+ c = a +:+ (b +:+ c).
Proof.
  induction a as [|x a IH]; [reflexivity|]. by rewrite !app_cons, IH.
Qed.

Lemma endswith_iff (s suf : string) :
  Py.endswith s suf = true ↔ ∃ p, s = p +:+ suf.
Proof.
  induction s as [|c s IH]; cbn [Py.endswith].
  - rewrite orb_false_r, String.eqb_eq. split.
    + intros <-. by exists "".
    + intros [[|c p] Hp]; [done | discriminate].
  - rewrite orb_true_iff, String.eqb_eq, IH. split.
    + intros [<- | [p ->]]; [by exists "" | by exists (String c p)].
    + intros [[|c' p] Hp]; [by left|].
      rewrite app_cons in Hp. injection Hp as -> ->. right. by exists p.
Qed.


Lemma lower_app (a b : string) :
  Py.lower (a +:+ b) = Py.lower a +:+ Py.lower b.
Proof.
  induction a as [|c a IH]; [reflexivity|].
  rewrite app_cons. simpl. by rewrite IH, app_cons.
Qed.

Lemma lower_split (u p q : string) :
  Py.lower u = p +:+ q →
  ∃ p' q', u = p' +:+ q' ∧ Py.lower p' = p ∧ Py.lower q' = q.
Proof.
  revert u. induction p as [|c p IH]; intros u H.
  - by exists "", u.
  - destruct u as [|d u]; [discriminate|].
    rewrite app_cons in H. simpl in H. injection H as Hc Hu.
    destruct (IH _ Hu) as (p' & q' & -> & Hp & Hq).
    exists (String d p'), q'. simpl. by rewrite Hc, Hp.
Qed.

(** The four characters a name must end in to pass [is_csv_name]. *)
Definition csv_suffix (t : string) : Prop :=
  ∃ c s v, t = String "." (String c (String s (String v "")))
    ∧ (c = "c" ∨ c = "C")%char ∧ (s = "s" ∨ s = "S")%char
    ∧ (v = "v" ∨ v = "V")%char.

Lemma lower_char_is (c : ascii) (l : ascii) :
  Py.lower_char c = l →
  (l = "." → c = ".")%char
  ∧ (l = "c" → c = "c" ∨ c = "C")%char
  ∧ (l = "s" → c = "s" ∨ c = "S")%char
  ∧ (l = "v" → c = "v" ∨ c = "V")%char.
Proof.
  intros <-.
  destruct c as [[] [] [] [] [] [] [] []]; vm_compute;
    repeat split; intros H; try discriminate H; auto.
Qed.

Lemma lower_csv_suffix (t : string) : Py.lower t = ".csv" ↔ csv_suffix t.
Proof.
  split.
  - destruct t as [|c0 [|c1 [|c2 [|c3 [|]]]]]; try discriminate.
    simpl. intros H. injection H as H0 H1 H2 H3.
    apply lower_char_is in H0 as (-> & _); [|done].
    apply lower_char_is in H1 as (_ & H1 & _).
    apply lower_char_is in H2 as (_ & _ & H2 & _).
    apply lower_char_is in H3 as (_ & _ & _ & H3).
    exists c1, c2, c3. auto.
  - intros (c & x & v & -> & [-> | ->] & [-> | ->] & [-> | ->]); reflexivity.
Qed.

Lemma is_csv_name_iff (u : string) :
  is_csv_name u = true ↔ ∃ p t, u = p +:+ t ∧ csv_suffix t.
Proof.
  unfold is_csv_name. rewrite endswith_iff. split.
  - intros [p Hp]. apply lower_split in Hp as (p' & t & -> & _ & Ht).
    exists p', t. split; [done|]. by apply lower_csv_suffix.
  - intros (p & t & -> & Ht). exists (Py.lower p).
    rewrite lower_app. f_equal. by apply lower_csv_suffix.
Qed.

Lemma rstrip_app_keep (p q : string) :
  Py.rstrip q ≠ "" → Py.rstrip (p +:+ q) = p +:+ Py.rstrip q.
Proof.
  intros Hq. induction p as [|c p IH]; [reflexivity|].
  rewrite !app_cons. simpl. rewrite IH.
  destruct (p +:+ Py.rstrip q) eqn:E; [|reflexivity].
  destruct p; [|discriminate]. by destruct Hq.
Qed.

Lemma lstrip_app_keep (p : string) (c : ascii) (r : string) :
  Py.isspace c = false → ∃ p', Py.lstrip (p +:+ String c r) = p' +:+ String c r.
Proof.
  intros Hc. induction p as [|d p IH].
  - exists "". simpl. unfold String.app at 1. simpl. by rewrite Hc.
  - rewrite app_cons. simpl. destruct (Py.isspace d).
    + exact IH.
    + exists (String d p). by rewrite app_cons.
Qed.

Lemma strip_keeps_csv_suffix (p t : string) :
  csv_suffix t → ∃ p', Py.strip (p +:+ t) = p' +:+ t.
Proof.
  intros (c & x & v & -> & Hc & Hx & Hv). unfold Py.strip.
  rewrite rstrip_app_keep.
  - assert (Py.rstrip (String "." (String c (String x (String v ""))))
            = String "." (String c (String x (String v "")))) as ->.
    { destruct Hc as [-> | ->], Hx as [-> | ->], Hv as [-> | ->]; reflexivity. }
    by apply lstrip_app_keep.
  - destruct Hc as [-> | ->], Hx as [-> | ->], Hv as [-> | ->]; discriminate.
Qed.


(** ** extract_csv_urls *)

Example extract_spec_scenario :
  csv_urls_of
    ("<a href=" +:+ dq +:+ "http://x/a.csv" +:+ dq +:+ ">"
     +:+ "<a href=" +:+ dq +:+ "http://x/b.csv" +:+ dq +:+ ">"
     +:+ "<a href=" +:+ dq +:+ "http://x/c.txt" +:+ dq +:+ ">")
  = ["http://x/a.csv"; "http://x/b.csv"].
Proof. vm_compute. reflexivity. Qed.



(** ** aggregate_csv_files *)














Lemma csv_files_app (xs ys : list (string * file_read)) :
  csv_files (xs ++ ys) = csv_files xs ++ csv_files ys.
Proof. apply List.filter_app. Qed.


(** ** download_file *)

Section DownloadFacts.

Variable urlparse_path : string → string.
Variable urlopen : nat → request → attempt.
Variable time_time : nat → Z.
Variable listdir : gmap string string → list string.
Variable read_csv : string → string → file_read.

Lemma download_attempts_step (self : downloader)
    (url filename filepath : string) (attempt : nat) (todo : list nat)
    (w : world) :
  download_attempts urlopen self url filename filepath (attempt :: todo) w =
    match failure_of (urlopen (requests w) (request_for url)) with
    | None =>
        (Some filepath,
         log_download (success_line url filename)
           (write_raw filename
              (payload_of (urlopen (requests w) (request_for url)))
              (count_request w)))
    | Some msg =>
        if (attempt <? retry_attempts)%nat
        then download_attempts urlopen self url filename filepath todo
               (sleep retry_delay (count_request w))
        else (None, log_download (failed_line url filename msg)
                      (count_request w))
    end.
Proof.
  cbn [download_attempts]. fold (request_for url).
  destruct (urlopen (requests w) (request_for url)) as [status data| | |];
    simpl; try reflexivity.
  destruct (status =? 200)%Z; reflexivity.
Qed.

Lemma failure_of_none (a : attempt) :
  failure_of a = None → a = Responds 200 (payload_of a).
Proof.
  destruct a as [status data| | |]; simpl; try discriminate.
  destruct (status =? 200)%Z eqn:E; [|discriminate].
  apply Z.eqb_eq in E as ->. reflexivity.
Qed.

Lemma tried_fields (n : nat) (w : world) :
  1 ≤ n →
  requests (tried n w) = n + requests w
  ∧ sleeps (tried n w) = sleeps w ++ repeat retry_delay (n - 1)
  ∧ raw_files (tried n w) = raw_files w
  ∧ combined_file (tried n w) = combined_file w
  ∧ downloads_log (tried n w) = downloads_log w
  ∧ aggregation_log (tried n w) = aggregation_log w
  ∧ console (tried n w) = console w.
Proof.
  induction n as [|[|n] IH]; intros Hn; [lia| |].
  - simpl. rewrite app_nil_r. done.
  - destruct IH as (H1 & H2 & H3 & H4 & H5 & H6 & H7); [lia|].
    change (tried (S (S n)) w)
      with (count_request (sleep retry_delay (tried (S n) w))).
    cbn [requests sleeps raw_files combined_file downloads_log aggregation_log
         console count_request sleep].
    rewrite H1, H2, H3, H4, H5, H6, H7. repeat split.
    replace (S (S n) - 1) with (S n) by lia.
    replace (S n - 1) with n by lia.
    rewrite <- app_assoc. f_equal. symmetry. apply repeat_cons.
Qed.

(** What one call does, in full: it stops at the first request answered
    with status 200, or after the third failure. *)
Lemma download_file_cases (self : downloader) (url : string) (w : world) :
  let filename := local_filename urlparse_path (time_time (requests w)) url in
  let filepath := Py.join (raw_dir self) filename in
  let outcome k := urlopen (k + requests w) (request_for url) in
  (∃ n, 1 ≤ n ≤ 3
     ∧ (∀ k, k < n - 1 → is_Some (failure_of (outcome k)))
     ∧ outcome (n - 1) = Responds 200 (payload_of (outcome (n - 1)))
     ∧ download_file urlparse_path urlopen time_time self url w
       = (Some filepath,
          log_download (success_line url filename)
            (write_raw filename (payload_of (outcome (n - 1))) (tried n w))))
  ∨ (∃ msg,
       (∀ k, k < 3 → is_Some (failure_of (outcome k)))
       ∧ failure_of (outcome 2) = Some msg
       ∧ download_file urlparse_path urlopen time_time self url w
         = (None, log_download (failed_line url filename msg) (tried 3 w))).
Proof.
  intros filename filepath outcome.
  unfold download_file. fold filename. fold filepath.
  change (seq 1 retry_attempts) with [1; 2; 3].
  rewrite download_attempts_step.
  destruct (failure_of (urlopen (requests w) (request_for url))) as [m0|] eqn:E0.
  2: { left. exists 1. repeat split; [lia | lia | intros k Hk; lia | ].
       by apply failure_of_none. }
  change (1 <? retry_attempts)%nat with true. cbv iota.
  rewrite download_attempts_step.
  cbn [requests sleep count_request].
  destruct (failure_of (urlopen (S (requests w)) (request_for url)))
    as [m1|] eqn:E1.
  2: { left. exists 2. repeat split; [lia | lia | | ].
       - intros k Hk. assert (k = 0) as -> by lia. subst outcome. simpl.
         by rewrite E0.
       - by apply failure_of_none. }
  change (2 <? retry_attempts)%nat with true. cbv iota.
  rewrite download_attempts_step.
  cbn [requests sleep count_request].
  destruct (failure_of (urlopen (S (S (requests w))) (request_for url)))
    as [m2|] eqn:E2.
  - right. exists m2. repeat split.
    + intros k Hk. subst outcome.
      destruct k as [|[|[|k]]]; simpl; [by rewrite E0 | by rewrite E1
        | by rewrite E2 | lia].
    + exact E2.
  - left. exists 3. repeat split; [lia | lia | | ].
    + intros k Hk. subst outcome.
      destruct k as [|[|k]]; simpl; [by rewrite E0 | by rewrite E1 | lia].
    + by apply failure_of_none.
Qed.


Lemma contains_empty (sub : string) :
  Py.contains sub "" = true → sub = "".
Proof. simpl. rewrite orb_false_r. by destruct sub. Qed.

Lemma local_filename_kept (now : Z) (url : string) :
  Py.contains "." (Py.basename (urlparse_path url)) = true →
  local_filename urlparse_path now url = Py.basename (urlparse_path url).
Proof.
  intros H. unfold local_filename. rewrite H.
  destruct (Py.basename (urlparse_path url)) as [|c b] eqn:E.
  - apply contains_empty in H. discriminate.
  - reflexivity.
Qed.

Lemma local_filename_made (now : Z) (url : string) :
  Py.basename (urlparse_path url) = ""
  ∨ Py.contains "." (Py.basename (urlparse_path url)) = false →
  local_filename urlparse_path now url = "download_" +:+ pretty now +:+ ".csv".
Proof.
  intros H. unfold local_filename. destruct H as [-> | ->]; [reflexivity|].
  by rewrite orb_true_r.
Qed.



(** C10: two links whose URL paths have the same basename, one with a dot,
    get the same local file path whatever the time; when both downloads
    succeed one after the other, the raw directory holds under that name
    the payload of the second alone, one file and not two, and the log has
    the two SUCCESS lines and nothing about the overwriting. *)
Theorem same_basename_same_file (self : downloader) (u1 u2 : string)
    (w w1 w2 : world) (p1 p2 : string) :
  Py.basename (urlparse_path u1) = Py.basename (urlparse_path u2) →
  Py.contains "." (Py.basename (urlparse_path u1)) = true →
  download_file urlparse_path urlopen time_time self u1 w = (Some p1, w1) →
  download_file urlparse_path urlopen time_time self u2 w1 = (Some p2, w2) →
  let name := Py.basename (urlparse_path u1) in
  (∀ now1 now2, local_filename urlparse_path now1 u1 = name
                ∧ local_filename urlparse_path now2 u2 = name)
  ∧ p1 = Py.join (raw_dir self) name
  ∧ p2 = p1
  ∧ (∃ k data, k < 3
       ∧ urlopen (k + requests w1) (request_for u2) = Responds 200 data
       ∧ raw_files w2 = <[name := data]> (raw_files w))
  ∧ dom (raw_files w2) = {[name]} ∪ dom (raw_files w)
  ∧ downloads_log w2
    = downloads_log w ++ [success_line u1 name; success_line u2 name].
Proof.
  intros Hsame Hdot D1 D2 name.
  assert (N1 : ∀ now, local_filename urlparse_path now u1 = name)
    by (intros; by apply local_filename_kept).
  assert (N2 : ∀ now, local_filename urlparse_path now u2 = name).
  { intros now. subst name. rewrite Hsame. apply local_filename_kept.
    by rewrite <- Hsame. }
  split; [done|].
  destruct (download_file_cases self u1 w)
    as [(n & Hn & _ & _ & E1) | (msg & _ & _ & E1)];
    rewrite E1 in D1; [|discriminate].
  destruct (download_file_cases self u2 w1)
    as [(m & Hm & _ & Hok & E2) | (msg & _ & _ & E2)];
    rewrite E2 in D2; [|discriminate].
  rewrite N1 in D1. rewrite N2 in D2.
  injection D1 as <- <-. injection D2 as <- <-.
  destruct (tried_fields n w) as (_ & _ & Hraw1 & _ & Hlog1 & _); [lia|].
  set (w1 := log_download _ (write_raw name _ (tried n w))) in *.
  destruct (tried_fields m w1) as (_ & _ & Hraw2 & _ & Hlog2 & _); [lia|].
  assert (Hfiles : raw_files
            (log_download (success_line u2 name)
               (write_raw name
                  (payload_of (urlopen (m - 1 + requests w1) (request_for u2)))
                  (tried m w1)))
          = <[name := payload_of
                        (urlopen (m - 1 + requests w1) (request_for u2))]>
              (raw_files w)).
  { cbn [raw_files log_download write_raw]. rewrite Hraw2. subst w1.
    cbn [raw_files log_download write_raw]. rewrite Hraw1.
    apply insert_insert_eq. }
  split; [done|]. split; [done|]. split; [|split].
  - exists (m - 1), (payload_of (urlopen (m - 1 + requests w1) (request_for u2))).
    split; [lia|]. split; [exact Hok | exact Hfiles].
  - etrans; [|apply dom_insert_L]. f_equal. exact Hfiles.
  - cbn [downloads_log log_download write_raw]. rewrite Hlog2. subst w1.
    cbn [downloads_log log_download write_raw]. rewrite Hlog1.
    by rewrite <- app_assoc.
Qed.

(** C7: when the extractor finds no link, the run stops after the
    extraction: it sends no request, pauses never, leaves the raw directory
    and the combined file as they were, logs what the extractor logs and no
    line of a download or of the aggregation, and tells the operator, after
    the two opening lines, that no .csv URL was found. *)
Theorem run_without_links (self : downloader) (eml : eml_file) (w : world) :
  fst (extract_csv_urls self eml w) = [] →
  let w' := run urlparse_path urlopen time_time listdir read_csv self eml w in
  raw_files w' = raw_files w
  ∧ combined_file w' = combined_file w
  ∧ requests w' = requests w
  ∧ sleeps w' = sleeps w
  ∧ console w'
    = console w ++ [ "Parsing email: " +:+ eml_path self;
                     "Output folder: " +:+ output_dir self;
                     " No .csv URLs found in email." ]
  ∧ downloads_log w'
    = downloads_log w ++
      match eml with
      | Missing => ["EMAIL NOT FOUND: " +:+ eml_path self]
      | Unparsable reason => ["FAILED TO PARSE EMAIL: " +:+ reason]
      | Parses _ => []
      end
  ∧ aggregation_log w'
    = aggregation_log w ++
      match eml with
      | Parses _ => ["Found 0 .csv URLs in email."]
      | _ => []
      end.
Proof.
  intros Hnone w'. subst w'. unfold run.
  destruct eml as [|reason|msg]; simpl in Hnone |- *.
  - rewrite <- !app_assoc, !app_nil_r. repeat split.
  - rewrite <- !app_assoc, !app_nil_r. repeat split.
  - rewrite Hnone. simpl. rewrite <- !app_assoc, !app_nil_r. repeat split.
Qed.

End DownloadFacts.

(** * Further properties *)

(** ** More on strings *)

Lemma all_chars_app (cls : ascii → bool) (a b : string) :
  Url.all_chars cls (a +:+ b) = Url.all_chars cls a && Url.all_chars cls b.
Proof.
  induction a as [|c a IH]; [reflexivity|].
  rewrite app_cons. simpl. by rewrite IH, andb_assoc.
Qed.

Lemma all_chars_lstrip (cls : ascii → bool) (s : string) :
  Url.all_chars cls s = true → Url.all_chars cls (Py.lstrip s) = true.
Proof.
  induction s as [|c s IH]; [done|]. simpl.
  intros [Hc Hs]%andb_prop. destruct (Py.isspace c); [auto|].
  simpl. by rewrite Hc, Hs.
Qed.

Lemma all_chars_rstrip (cls : ascii → bool) (s : string) :
  Url.all_chars cls s = true → Url.all_chars cls (Py.rstrip s) = true.
Proof.
  induction s as [|c s IH]; [done|]. simpl.
  intros [Hc Hs]%andb_prop. specialize (IH Hs).
  destruct (Py.rstrip s) as [|d r].
  - destruct (Py.isspace c); simpl; [done | by rewrite Hc].
  - change (Url.all_chars cls (String c (String d r)))
      with (cls c && Url.all_chars cls (String d r)).
    by rewrite Hc, IH.
Qed.

Lemma lstrip_lstrip (s : string) : Py.lstrip (Py.lstrip s) = Py.lstrip s.
Proof.
  induction s as [|c s IH]; [done|]. simpl.
  destruct (Py.isspace c) eqn:E; [done|]. simpl. by rewrite E.
Qed.

Lemma startswith_empty (s : string) : Py.startswith s "" = true.
Proof. by destruct s. Qed.

Lemma contains_char (c : ascii) (s : string) :
  Py.contains (String c "") s
  = negb (Url.all_chars (fun x => negb (Ascii.eqb c x)) s).
Proof.
  induction s as [|d s IH]; [reflexivity|].
  cbn [Py.contains Py.startswith Url.all_chars].
  rewrite IH, startswith_empty. destruct (Ascii.eqb c d); reflexivity.
Qed.

Lemma startswith_app (a b : string) : Py.startswith (a +:+ b) a = true.
Proof.
  induction a as [|c a IH]; [by destruct b|].
  rewrite app_cons. simpl. by rewrite Ascii.eqb_refl, IH.
Qed.

Lemma app_length_s (a b : string) :
  String.length (a +:+ b) = String.length a + String.length b.
Proof.
  induction a as [|c a IH]; [reflexivity|]. rewrite app_cons. simpl. lia.
Qed.

Lemma app_inj_r (a b c : string) : a +:+ c = b +:+ c → a = b.
Proof.
  revert b. induction a as [|x a IH]; intros [|y b] H.
  - reflexivity.
  - apply (f_equal String.length) in H.
    rewrite !app_length_s in H. simpl in H. lia.
  - apply (f_equal String.length) in H.
    rewrite !app_length_s in H. simpl in H. lia.
  - rewrite !app_cons in H. injection H as -> H. f_equal. by apply IH.
Qed.

(** ** More on the pattern of line 133 *)

Lemma greedy_passes (P : string → Prop) (cls : ascii → bool) (least : nat)
    (k : string → option (string * nat)) (s g : string) (n : nat) :
  (∀ s' g' n', k s' = Some (g', n') → P g') →
  Re.greedy cls least false k s = Some (g, n) → P g.
Proof.
  intros Hk. revert least g n.
  induction s as [|c s IH]; intros least g n; simpl.
  - destruct least; [apply Hk | discriminate].
  - destruct (cls c).
    + destruct (Re.greedy cls (Nat.pred least) false k s) as [[g' n']|] eqn:E.
      * intros [= <- _]. eapply IH, E.
      * destruct least; [apply Hk | discriminate].
    + destruct least; [apply Hk | discriminate].
Qed.

Lemma greedy_group (cls : ascii → bool) (least : nat)
    (k : string → option (string * nat)) (s g : string) (n : nat) :
  (∀ s' g' n', k s' = Some (g', n') → g' = "") →
  Re.greedy cls least true k s = Some (g, n) →
  Url.all_chars cls g = true ∧ least ≤ String.length g.
Proof.
  intros Hk. revert least g n.
  induction s as [|c s IH]; intros least g n; simpl.
  - destruct least; [|discriminate].
    intros H. apply Hk in H as ->. split; [done | simpl; lia].
  - destruct (cls c) eqn:Hc.
    + destruct (Re.greedy cls (Nat.pred least) true k s) as [[g' n']|] eqn:E.
      * intros [= <- _]. apply IH in E as [Hall Hlen].
        simpl. rewrite Hc, Hall. split; [done | lia].
      * destruct least; [|discriminate].
        intros H. apply Hk in H as ->. split; [done | simpl; lia].
    + destruct least; [|discriminate].
      intros H. apply Hk in H as ->. split; [done | simpl; lia].
Qed.

Lemma match_here_ungrouped (p : list Re.atom) (s g : string) (n : nat) :
  ungrouped p = true → Re.match_here p s = Some (g, n) → g = "".
Proof.
  revert s g n. induction p as [|a p IH]; intros s g n Hp; simpl.
  - by intros [= <- _].
  - simpl in Hp. apply andb_prop in Hp as [Ha Hp].
    destruct a as [cls | least cls [|]]; [| discriminate |].
    + destruct s as [|c s]; [discriminate|].
      destruct (cls c); [|discriminate].
      destruct (Re.match_here p s) as [[g' n']|] eqn:E; [|discriminate].
      intros [= <- _]. by eapply IH.
    + apply (greedy_passes (fun g => g = "")). intros s' g' n'. by apply IH.
Qed.

(** The group of a match has the characters of its class, and at least as
    many as the repetition asks for. *)
Lemma match_here_group (pre post : list Re.atom) (least : nat)
    (cls : ascii → bool) (s g : string) (n : nat) :
  ungrouped pre = true → ungrouped post = true →
  Re.match_here (pre ++ Re.Rep least cls true :: post) s = Some (g, n) →
  Url.all_chars cls g = true ∧ least ≤ String.length g.
Proof.
  intros Hpre Hpost. revert s g n.
  induction pre as [|a pre IH]; intros s g n.
  - simpl. apply greedy_group. intros s' g' n'. by apply match_here_ungrouped.
  - simpl in Hpre. apply andb_prop in Hpre as [Ha Hpre]. specialize (IH Hpre).
    cbn [app Re.match_here].
    destruct a as [c0 | l0 c0 [|]]; [| discriminate |].
    + destruct s as [|c s]; [discriminate|].
      destruct (c0 c); [|discriminate].
      destruct (Re.match_here _ s) as [[g' n']|] eqn:E; [|discriminate].
      intros [= <- _]. by eapply IH.
    + apply (greedy_passes
               (fun g => Url.all_chars cls g = true ∧ least ≤ String.length g)).
      exact IH.
Qed.

Lemma findall_from_match (p : list Re.atom) (skip : nat) (s g : string) :
  In g (Re.findall_from p skip s) →
  ∃ s' n, Re.match_here p s' = Some (g, n).
Proof.
  revert skip. induction s as [|c s IH]; intros skip; simpl.
  - destruct skip; [|done].
    destruct (Re.match_here p "") as [[g' n']|] eqn:E; [|done].
    intros [<- | []]. eauto.
  - destruct skip; [|apply IH].
    destruct (Re.match_here p (String c s)) as [[g' n']|] eqn:E.
    + intros [<- | H]; [eauto | by eapply IH].
    + apply IH.
Qed.

Lemma links_have_no_quote (body link : string) :
  In link (links_of body) →
  Url.all_chars (Re.non Re.quote) link = true ∧ 1 ≤ String.length link.
Proof.
  intros (s' & n & H)%findall_from_match.
  apply (match_here_group
           [ Re.Chr (Re.only "<"); Re.Chr (Re.ci "a");
             Re.Rep 1 (Re.non (Re.only ">")) false;
             Re.Chr (Re.ci "h"); Re.Chr (Re.ci "r"); Re.Chr (Re.ci "e");
             Re.Chr (Re.ci "f"); Re.Chr (Re.only "="); Re.Chr Re.quote ]
           [ Re.Chr Re.quote; Re.Rep 0 (Re.non (Re.only ">")) false;
             Re.Chr (Re.only ">") ]
           1 (Re.non Re.quote) s' link n); [reflexivity | reflexivity |].
  exact H.
Qed.

(** X2: every URL the extractor returns is free of single and double
    quotes, is not empty, and neither starts nor ends with white space
    (stripping it again changes nothing). *)
Theorem extracted_urls_are_clean (self : downloader) (msg : message)
    (w : world) (url : string) :
  In url (fst (extract_csv_urls self (Parses msg) w)) →
  url ≠ ""
  ∧ Url.all_chars (Re.non Re.quote) url = true
  ∧ Py.lstrip url = url
  ∧ Py.rstrip url = url
  ∧ Py.strip url = url.
Proof.
  simpl. unfold csv_urls_of.
  intros (u0 & <- & Hu0)%in_map_iff.
  apply filter_In in Hu0 as [Hlink Hcsv].
  apply links_have_no_quote in Hlink as [Hq _].
  apply is_csv_name_iff in Hcsv as (p & t & -> & Ht).
  destruct (strip_keeps_csv_suffix p t Ht) as [p' Hp'].
  assert (Hl : Py.lstrip (Py.strip (p +:+ t)) = Py.strip (p +:+ t))
    by apply lstrip_lstrip.
  assert (Hr : Py.rstrip (Py.strip (p +:+ t)) = Py.strip (p +:+ t)).
  { rewrite Hp'. destruct Ht as (c & x & v & -> & Hc & Hx & Hv).
    rewrite rstrip_app_keep;
      destruct Hc as [-> | ->], Hx as [-> | ->], Hv as [-> | ->];
      first [reflexivity | discriminate]. }
  split; [|split; [|split; [|split]]]; try done.
  - rewrite Hp'. destruct Ht as (c & x & v & -> & _). by destruct p'.
  - unfold Py.strip. by apply all_chars_lstrip, all_chars_rstrip.
  - unfold Py.strip at 1. by rewrite Hr, Hl.
Qed.

Lemma greedy_reaches (Q : string → Prop) (cls : ascii → bool) (least : nat)
    (grp : bool) (k : string → option (string * nat)) (s : string) :
  (∀ c s', Q s' → Q (String c s')) →
  (∀ s', is_Some (k s') → Q s') →
  is_Some (Re.greedy cls least grp k s) → Q s.
Proof.
  intros Hup Hk. revert least.
  induction s as [|c s IH]; intros least; simpl.
  - destruct least; [apply Hk | by intros []].
  - destruct (cls c).
    + destruct (Re.greedy cls (Nat.pred least) grp k s) as [[g' n']|] eqn:E.
      * intros _. apply Hup. apply (IH (Nat.pred least)). by rewrite E.
      * destruct least; [apply Hk | by intros []].
    + destruct least; [apply Hk | by intros []].
Qed.

(** A pattern that ends in a character of a class only matches text that
    has such a character. *)
Lemma match_here_needs_last (p : list Re.atom) (cls : ascii → bool)
    (s : string) :
  is_Some (Re.match_here (p ++ [Re.Chr cls]) s) →
  Url.all_chars (Re.non cls) s = false.
Proof.
  revert s. induction p as [|a p IH]; intros s.
  - destruct s as [|c s]; simpl; [by intros []|].
    unfold Re.non. destruct (cls c); [done | by intros []].
  - cbn [app Re.match_here]. destruct a as [c0 | least c0 grp].
    + destruct s as [|c s]; [by intros []|].
      destruct (c0 c); [|by intros []].
      destruct (Re.match_here (p ++ [Re.Chr cls]) s) as [[g n]|] eqn:E;
        [|by intros []].
      intros _. simpl. rewrite IH; [apply andb_false_r | by rewrite E].
    + apply (greedy_reaches (fun s => Url.all_chars (Re.non cls) s = false));
        [|exact IH].
      intros c s' Hs'. simpl. rewrite Hs'. apply andb_false_r.
Qed.

Lemma findall_from_needs_last (p : list Re.atom) (cls : ascii → bool)
    (skip : nat) (s : string) :
  Url.all_chars (Re.non cls) s = true →
  Re.findall_from (p ++ [Re.Chr cls]) skip s = [].
Proof.
  revert skip. induction s as [|c s IH]; intros skip Hs.
  - destruct skip; [|reflexivity]. simpl.
    destruct (Re.match_here (p ++ [Re.Chr cls]) "") as [[g n]|] eqn:E;
      [|reflexivity].
    assert (is_Some (Re.match_here (p ++ [Re.Chr cls]) "")) as Hm
      by by rewrite E.
    apply match_here_needs_last in Hm. discriminate.
  - pose proof Hs as Hs'. simpl in Hs'. apply andb_prop in Hs' as [_ Hs'].
    destruct skip; cbn [Re.findall_from]; [|by apply IH].
    destruct (Re.match_here (p ++ [Re.Chr cls]) (String c s)) as [[g n]|] eqn:E;
      [|by apply IH].
    assert (is_Some (Re.match_here (p ++ [Re.Chr cls]) (String c s))) as Hm
      by by rewrite E.
    apply match_here_needs_last in Hm. congruence.
Qed.

(** X3: a body without the character [>] gives no link: an anchor tag that
    is never closed is passed over, whatever its href. *)
Theorem unclosed_tags_give_no_links (self : downloader) (text : string)
    (w : world) :
  Url.all_chars (Re.non (Re.only ">")) text = true →
  links_of text = []
  ∧ fst (extract_csv_urls self (Parses (Singlepart (Some text))) w) = [].
Proof.
  intros H.
  assert (Hl : links_of text = []).
  { apply (findall_from_needs_last
             [ Re.Chr (Re.only "<"); Re.Chr (Re.ci "a");
               Re.Rep 1 (Re.non (Re.only ">")) false;
               Re.Chr (Re.ci "h"); Re.Chr (Re.ci "r"); Re.Chr (Re.ci "e");
               Re.Chr (Re.ci "f"); Re.Chr (Re.only "="); Re.Chr Re.quote;
               Re.Rep 1 (Re.non Re.quote) true; Re.Chr Re.quote;
               Re.Rep 0 (Re.non (Re.only ">")) false ]
             (Re.only ">") 0 text H). }
  split; [exact Hl|]. simpl. unfold csv_urls_of. by rewrite Hl.
Qed.

Lemma add_part_ignored (body : string) (p : part) :
  ignored_part p = true → add_part body p = body.
Proof.
  unfold ignored_part, add_part.
  destruct (Py.contains "attachment" (default "" (content_disposition p)));
    [done|].
  destruct (String.eqb (content_type p) "text/html"); [|done].
  by destruct (payload p).
Qed.

(** X1: a part of a multipart message that is marked as an attachment, is
    not of type text/html or has no payload adds nothing: with or without
    it, wherever it stands, the extractor returns the same links and logs
    the same line. *)
Theorem ignored_parts_add_no_links (self : downloader)
    (before after : list part) (p : part) (w : world) :
  ignored_part p = true →
  body_of (Multipart (before ++ p :: after))
  = body_of (Multipart (before ++ after))
  ∧ extract_csv_urls self (Parses (Multipart (before ++ p :: after))) w
    = extract_csv_urls self (Parses (Multipart (before ++ after))) w.
Proof.
  intros Hp.
  assert (Hb : body_of (Multipart (before ++ p :: after))
               = body_of (Multipart (before ++ after))).
  { simpl. rewrite !fold_left_app. simpl. by rewrite add_part_ignored. }
  split; [exact Hb|]. unfold extract_csv_urls. by rewrite Hb.
Qed.

(** ** More on aggregate_csv_files *)







(** ** More on paths and file names *)

Lemma join_sep (dir name : string) :
  Py.startswith name "/" = false →
  Py.join dir name = dir +:+ sep_of dir +:+ name.
Proof.
  intros H. unfold Py.join, sep_of. rewrite H.
  by destruct (Py.endswith dir "/" || String.eqb dir "").
Qed.

Lemma endswith_app_long (a b suf : string) :
  String.length suf ≤ String.length b →
  Py.endswith (a +:+ b) suf = Py.endswith b suf.
Proof.
  intros Hlen. induction a as [|c a IH]; [reflexivity|].
  rewrite app_cons. cbn [Py.endswith]. rewrite IH.
  destruct (String.eqb_spec (String c (a +:+ b)) suf) as [E|]; [|done].
  apply (f_equal String.length) in E. simpl in E.
  rewrite app_length_s in E. lia.
Qed.

Lemma raw_dir_sep (self : downloader) : sep_of (raw_dir self) = "/".
Proof.
  unfold sep_of, raw_dir. rewrite join_sep by reflexivity.
  rewrite <- app_assoc_s.
  rewrite endswith_app_long by (simpl; lia).
  destruct (String.eqb_spec
              ((output_dir self +:+ sep_of (output_dir self))
               +:+ "raw_downloads") "") as [E|]; [|reflexivity].
  apply (f_equal String.length) in E. rewrite app_length_s in E.
  simpl in E. lia.
Qed.

Lemma basename_no_slash (p : string) :
  Py.contains "/" (Py.basename p) = false.
Proof.
  induction p as [|c p IH]; [reflexivity|]. cbn [Py.basename].
  destruct (Py.contains "/" p) eqn:Hp; [exact IH|].
  destruct (Ascii.eqb c "/") eqn:Hc; [exact Hp|].
  cbn [Py.contains Py.startswith]. rewrite Hp, Ascii.eqb_sym, Hc.
  reflexivity.
Qed.

Lemma pretty_N_go_chars (cls : ascii → bool) (x : N) (s : string) :
  (∀ d, cls (pretty_N_char d) = true) →
  Url.all_chars cls s = true →
  Url.all_chars cls (pretty_N_go x s) = true.
Proof.
  intros Hd. revert s. induction (N.lt_wf_0 x) as [x _ IH]; intros s Hs.
  destruct (decide (x = 0)%N) as [-> | Hx]; [by rewrite pretty_N_go_0|].
  rewrite pretty_N_go_step by lia. apply IH.
  - apply N.div_lt; lia.
  - simpl. by rewrite Hd, Hs.
Qed.

Lemma pretty_N_chars (cls : ascii → bool) (x : N) :
  (∀ d, cls (pretty_N_char d) = true) →
  Url.all_chars cls (pretty x) = true.
Proof.
  intros Hd. unfold pretty, pretty_N. case_decide.
  - pose proof (Hd 0%N) as H0. simpl in H0 |- *. by rewrite H0.
  - by apply pretty_N_go_chars.
Qed.

Lemma pretty_Z_chars (cls : ascii → bool) (z : Z) :
  (∀ d, cls (pretty_N_char d) = true) → cls "-"%char = true →
  Url.all_chars cls (pretty z) = true.
Proof.
  intros Hd Hm. destruct z as [|x|x].
  - pose proof (Hd 0%N) as H0. simpl in H0 |- *. by rewrite H0.
  - by apply (pretty_N_chars cls (N.pos x)).
  - change (pretty (Z.neg x)) with ("-" +:+ pretty (N.pos x)).
    rewrite all_chars_app. simpl. rewrite Hm. simpl.
    by apply pretty_N_chars.
Qed.

Lemma fallback_name_no_slash (now : Z) :
  Py.contains "/" ("download_" +:+ pretty now +:+ ".csv") = false.
Proof.
  rewrite contains_char, !all_chars_app.
  rewrite (pretty_Z_chars _ now); [reflexivity | | reflexivity].
  intros d. unfold pretty_N_char. by repeat case_match.
Qed.

Lemma no_slash_no_lead (name : string) :
  Py.contains "/" name = false → Py.startswith name "/" = false.
Proof.
  destruct name as [|c name]; [done|]. cbn [Py.contains].
  by intros [H _]%orb_false_elim.
Qed.

Section MoreDownloadFacts.

Variable urlparse_path : string → string.
Variable urlopen : nat → request → attempt.
Variable time_time : nat → Z.
Variable listdir : gmap string string → list string.
Variable read_csv : string → string → file_read.

Lemma local_filename_no_slash (now : Z) (url : string) :
  Py.contains "/" (local_filename urlparse_path now url) = false.
Proof.
  unfold local_filename.
  destruct (String.eqb _ "" || negb _).
  - apply fallback_name_no_slash.
  - apply basename_no_slash.
Qed.

(** X6: the local file of a link is always a plain name inside the raw
    directory: the name is not empty and has no slash, the path is the raw
    directory, a slash and the name, and it is never the path of the
    combined file, so no download can overwrite the merged output. *)
Theorem local_file_stays_in_raw_dir (self : downloader) (url : string)
    (now : Z) :
  let name := local_filename urlparse_path now url in
  let path := Py.join (raw_dir self) name in
  name ≠ ""
  ∧ Py.contains "/" name = false
  ∧ path = raw_dir self +:+ "/" +:+ name
  ∧ Py.startswith path (raw_dir self) = true
  ∧ path ≠ combined_path self.
Proof.
  intros name path.
  assert (Hslash : Py.contains "/" name = false)
    by apply local_filename_no_slash.
  assert (Hpath : path = raw_dir self +:+ "/" +:+ name).
  { subst path. rewrite join_sep by by apply no_slash_no_lead.
    by rewrite raw_dir_sep. }
  split; [|split; [done|split; [done|split]]].
  - subst name. unfold local_filename.
    destruct (Py.basename (urlparse_path url)) eqn:E; simpl; [done|].
    by destruct (negb _).
  - rewrite Hpath. apply startswith_app.
  - rewrite Hpath. unfold combined_path, raw_dir.
    rewrite !join_sep by reflexivity.
    rewrite !app_assoc_s. intros E.
    apply String.app_inj in E. apply String.app_inj in E. discriminate E.
Qed.

(** X7: two links without a usable file name get the same local name if and
    only if they are fetched in the same second: within one second the later
    download replaces the earlier, across seconds the names differ. *)
Theorem fallback_names_differ_by_second (u1 u2 : string) (now1 now2 : Z) :
  nameless urlparse_path u1 → nameless urlparse_path u2 →
  local_filename urlparse_path now1 u1 = local_filename urlparse_path now2 u2
  ↔ now1 = now2.
Proof.
  intros H1 H2.
  rewrite (local_filename_made urlparse_path now1 u1 H1).
  rewrite (local_filename_made urlparse_path now2 u2 H2).
  split; [|by intros ->].
  intros E. apply String.app_inj in E. apply app_inj_r in E.
  by apply pretty_Z_inj in E.
Qed.

(** X8: one call of download_file changes at most the one raw file it names:
    every other raw file, the combined file, the aggregation log and the
    console are as before. *)
Theorem download_touches_one_file (self : downloader) (url other : string)
    (w : world) :
  other ≠ local_filename urlparse_path (time_time (requests w)) url →
  let w' := snd (download_file urlparse_path urlopen time_time self url w) in
  raw_files w' !! other = raw_files w !! other
  ∧ combined_file w' = combined_file w
  ∧ aggregation_log w' = aggregation_log w
  ∧ console w' = console w.
Proof.
  intros Hother w'. subst w'.
  destruct (download_file_cases urlparse_path urlopen time_time self url w)
    as [(n & Hn & _ & _ & ->) | (msg & _ & _ & ->)].
  - destruct (tried_fields n w) as (_ & _ & Hr & Hc & _ & Ha & Ho); [lia|].
    cbn [snd raw_files combined_file aggregation_log console log_download
         write_raw].
    rewrite Hr, Hc, Ha, Ho. by rewrite lookup_insert_ne.
  - destruct (tried_fields 3 w) as (_ & _ & Hr & Hc & _ & Ha & Ho); [lia|].
    cbn [snd raw_files combined_file aggregation_log console log_download].
    by rewrite Hr, Hc, Ha, Ho.
Qed.

(** X11: a link whose path ends in a name with a dot but without the .csv
    suffix (the suffix being in the query) is saved under that name, and
    the aggregator then passes the file over: with or without it in the
    listing the aggregation is the same, so its rows never reach the
    combined file. *)
Theorem non_csv_download_is_never_merged (self : downloader) (url p : string)
    (w w1 : world) :
  Py.contains "." (Py.basename (urlparse_path url)) = true →
  is_csv_name (Py.basename (urlparse_path url)) = false →
  download_file urlparse_path urlopen time_time self url w = (Some p, w1) →
  let name := Py.basename (urlparse_path url) in
  p = raw_dir self +:+ "/" +:+ name
  ∧ is_Some (raw_files w1 !! name)
  ∧ ∀ before after read w2,
      aggregate_csv_files self (before ++ (name, read) :: after) w2
      = aggregate_csv_files self (before ++ after) w2.
Proof.
  intros Hdot Hcsv D name.
  destruct (download_file_cases urlparse_path urlopen time_time self url w)
    as [(n & Hn & _ & _ & E) | (msg & _ & _ & E)];
    rewrite E in D; [|discriminate].
  rewrite (local_filename_kept urlparse_path _ url Hdot) in D.
  injection D as <- <-. fold name. split; [|split].
  - rewrite join_sep, raw_dir_sep; [done|].
    apply no_slash_no_lead, basename_no_slash.
  - cbn [raw_files log_download write_raw]. rewrite lookup_insert_eq.
    by eexists.
  - intros before after read w2. unfold aggregate_csv_files.
    rewrite !csv_files_app. unfold csv_files at 2, name. simpl.
    rewrite Hcsv. reflexivity.
Qed.







End MoreDownloadFacts.


(** ** The theorems at work *)

Example fetch_third_time_lucky :
  download_file Url.path third_time_lucky noon example_self "http://x/a.csv"
    fresh_world
  = (Some "output/dtb.July_20240701_120000/raw_downloads/a.csv",
     {| raw_files := {["a.csv" := "id,n"]};
        combined_file := None;
        downloads_log := ["DOWNLOAD: http://x/a.csv -> a.csv - SUCCESS"];
        aggregation_log := [];
        console := [];
        sleeps := [2%Z; 2%Z];
        requests := 3 |}).
Proof. vm_compute. reflexivity. Qed.

Example fetch_always_down :
  download_file Url.path always_down noon example_self "http://x/a.csv"
    fresh_world
  = (None,
     {| raw_files := ∅;
        combined_file := None;
        downloads_log :=
          ["DOWNLOAD: http://x/a.csv -> a.csv - FAILED (unreachable)"];
        aggregation_log := [];
        console := [];
        sleeps := [2%Z; 2%Z];
        requests := 3 |}).
Proof. vm_compute. reflexivity. Qed.







Lemma same_basename_same_file_witness :
  (∀ now1 now2,
     local_filename Url.path now1 "http://a.example/t/data.csv" = "data.csv"
     ∧ local_filename Url.path now2 "http://b.example/data.csv" = "data.csv")
  ∧ "output/dtb.July_20240701_120000/raw_downloads/data.csv"
    = Py.join (raw_dir example_self) "data.csv"
  ∧ "output/dtb.July_20240701_120000/raw_downloads/data.csv"
    = "output/dtb.July_20240701_120000/raw_downloads/data.csv"
  ∧ (∃ k data, k < 3
       ∧ echo (k + requests
                 (snd (download_file Url.path echo noon example_self
                         "http://a.example/t/data.csv" fresh_world)))
           (request_for "http://b.example/data.csv") = Responds 200 data
       ∧ raw_files
           (snd (download_file Url.path echo noon example_self
                   "http://b.example/data.csv"
                   (snd (download_file Url.path echo noon example_self
                           "http://a.example/t/data.csv" fresh_world))))
         = <["data.csv" := data]> (raw_files fresh_world))
  ∧ dom (raw_files
           (snd (download_file Url.path echo noon example_self
                   "http://b.example/data.csv"
                   (snd (download_file Url.path echo noon example_self
                           "http://a.example/t/data.csv" fresh_world)))))
    = {["data.csv"]} ∪ dom (raw_files fresh_world)
  ∧ downloads_log
      (snd (download_file Url.path echo noon example_self
              "http://b.example/data.csv"
              (snd (download_file Url.path echo noon example_self
                      "http://a.example/t/data.csv" fresh_world))))
    = downloads_log fresh_world
      ++ [success_line "http://a.example/t/data.csv" "data.csv";
          success_line "http://b.example/data.csv" "data.csv"].
Proof.
  apply (same_basename_same_file Url.path echo noon example_self
           "http://a.example/t/data.csv" "http://b.example/data.csv"
           fresh_world
           (snd (download_file Url.path echo noon example_self
                   "http://a.example/t/data.csv" fresh_world))
           (snd (download_file Url.path echo noon example_self
                   "http://b.example/data.csv"
                   (snd (download_file Url.path echo noon example_self
                           "http://a.example/t/data.csv" fresh_world))))
           "output/dtb.July_20240701_120000/raw_downloads/data.csv"
           "output/dtb.July_20240701_120000/raw_downloads/data.csv");
    reflexivity.
Defined.

Lemma run_without_links_witness :
  raw_files
    (run Url.path echo noon no_listing no_rows example_self
       (Parses (Singlepart (Some "<a href='http://x/c.txt'>c</a>")))
       fresh_world) = raw_files fresh_world
  ∧ combined_file
      (run Url.path echo noon no_listing no_rows example_self
         (Parses (Singlepart (Some "<a href='http://x/c.txt'>c</a>")))
         fresh_world) = combined_file fresh_world
  ∧ requests
      (run Url.path echo noon no_listing no_rows example_self
         (Parses (Singlepart (Some "<a href='http://x/c.txt'>c</a>")))
         fresh_world) = requests fresh_world
  ∧ sleeps
      (run Url.path echo noon no_listing no_rows example_self
         (Parses (Singlepart (Some "<a href='http://x/c.txt'>c</a>")))
         fresh_world) = sleeps fresh_world
  ∧ console
      (run Url.path echo noon no_listing no_rows example_self
         (Parses (Singlepart (Some "<a href='http://x/c.txt'>c</a>")))
         fresh_world)
    = console fresh_world
      ++ [ "Parsing email: " +:+ eml_path example_self;
           "Output folder: " +:+ output_dir example_self;
           " No .csv URLs found in email." ]
  ∧ downloads_log
      (run Url.path echo noon no_listing no_rows example_self
         (Parses (Singlepart (Some "<a href='http://x/c.txt'>c</a>")))
         fresh_world)
    = downloads_log fresh_world ++ []
  ∧ aggregation_log
      (run Url.path echo noon no_listing no_rows example_self
         (Parses (Singlepart (Some "<a href='http://x/c.txt'>c</a>")))
         fresh_world)
    = aggregation_log fresh_world ++ ["Found 0 .csv URLs in email."].
Proof.
  apply (run_without_links Url.path echo noon no_listing no_rows example_self
           (Parses (Singlepart (Some "<a href='http://x/c.txt'>c</a>")))
           fresh_world).
  reflexivity.
Defined.

Lemma ignored_parts_add_no_links_witness :
  body_of (Multipart ([html_part] ++ attached_part :: [html_part]))
  = body_of (Multipart ([html_part] ++ [html_part]))
  ∧ extract_csv_urls example_self
      (Parses (Multipart ([html_part] ++ attached_part :: [html_part])))
      fresh_world
    = extract_csv_urls example_self
        (Parses (Multipart ([html_part] ++ [html_part]))) fresh_world.
Proof.
  apply (ignored_parts_add_no_links example_self [html_part] [html_part]
           attached_part fresh_world).
  reflexivity.
Defined.

Lemma extracted_urls_are_clean_witness :
  "http://x/a.csv" ≠ ""
  ∧ Url.all_chars (Re.non Re.quote) "http://x/a.csv" = true
  ∧ Py.lstrip "http://x/a.csv" = "http://x/a.csv"
  ∧ Py.rstrip "http://x/a.csv" = "http://x/a.csv"
  ∧ Py.strip "http://x/a.csv" = "http://x/a.csv".
Proof.
  apply (extracted_urls_are_clean example_self (Multipart [html_part])
           fresh_world "http://x/a.csv").
  vm_compute. left. reflexivity.
Defined.

Lemma unclosed_tags_give_no_links_witness :
  links_of "<a href='http://x/a.csv'" = []
  ∧ fst (extract_csv_urls example_self
           (Parses (Singlepart (Some "<a href='http://x/a.csv'")))
           fresh_world) = [].
Proof.
  apply (unclosed_tags_give_no_links example_self "<a href='http://x/a.csv'"
           fresh_world).
  reflexivity.
Defined.



Lemma fallback_names_differ_by_second_witness :
  local_filename Url.path 1719835200 "http://x/export?f=a.csv"
  = local_filename Url.path 1719835200 "http://x/dl/?f=b.csv"
  ↔ 1719835200%Z = 1719835200%Z.
Proof.
  apply (fallback_names_differ_by_second Url.path "http://x/export?f=a.csv"
           "http://x/dl/?f=b.csv" 1719835200 1719835200).
  - right. reflexivity.
  - left. reflexivity.
Defined.

Lemma download_touches_one_file_witness :
  raw_files (snd (download_file Url.path echo noon example_self
                    "http://x/a.csv" fresh_world)) !! "b.csv"
  = raw_files fresh_world !! "b.csv"
  ∧ combined_file (snd (download_file Url.path echo noon example_self
                          "http://x/a.csv" fresh_world))
    = combined_file fresh_world
  ∧ aggregation_log (snd (download_file Url.path echo noon example_self
                            "http://x/a.csv" fresh_world))
    = aggregation_log fresh_world
  ∧ console (snd (download_file Url.path echo noon example_self
                    "http://x/a.csv" fresh_world))
    = console fresh_world.
Proof.
  apply (download_touches_one_file Url.path echo noon example_self
           "http://x/a.csv" "b.csv" fresh_world).
  vm_compute. discriminate.
Defined.


Lemma non_csv_download_is_never_merged_witness :
  "output/dtb.July_20240701_120000/raw_downloads/get.php"
  = raw_dir example_self +:+ "/" +:+ "get.php"
  ∧ is_Some (raw_files
               (snd (download_file Url.path echo noon example_self
                       "http://x/get.php?f=a.csv" fresh_world)) !! "get.php")
  ∧ ∀ before after read w2,
      aggregate_csv_files example_self
        (before ++ ("get.php", read) :: after) w2
      = aggregate_csv_files example_self (before ++ after) w2.
Proof.
  apply (non_csv_download_is_never_merged Url.path echo noon example_self
           "http://x/get.php?f=a.csv"
           "output/dtb.July_20240701_120000/raw_downloads/get.php"
           fresh_world
           (snd (download_file Url.path echo noon example_self
                   "http://x/get.php?f=a.csv" fresh_world)));
    reflexivity.
Defined.
